(** * The random-number Lambda handler ([index.js])

    A shallow embedding of the handler exported by [index.js]

<<
    const _ = require('lodash');

    exports.handler = async (event) => {
      const maxValue = 100;
      const randomNumber = _.random(0, maxValue);
      const response = {
        statusCode: 200,
        body: JSON.stringify(`Random number: ${randomNumber}`),
      };
      return response;
    };
>>

    together with the pieces of the JavaScript platform it runs on:
    Numbers are IEEE 754 binary64 values (the reference implementation
    [SpecFloat] of the standard library), strings are sequences of code
    units, an object is a finite map from property names to values, an
    abrupt completion is an explicit [Throw], and the state that a
    statement could reach outside of the function, the generator behind
    [Math.random()] included, is threaded explicitly. *)

From Stdlib Require Import ZArith Lia Bool List String Ascii.
From Stdlib Require Import Floats.SpecFloat DecimalString DecimalZ.
From stdpp Require Import gmap strings.

Local Open Scope Z_scope.

(** ** Numbers *)

(** The Number type of the language: binary64, i.e. 53 bits of precision
    and exponents up to 1024. *)
Module Number.

Definition prec : Z := 53.
Definition emax : Z := 1024.

Definition t : Type := spec_float.

(** A numeric literal such as [0], [100] or [200]. *)
Definition of_Z (z : Z) : t := binary_normalize prec emax z 0 false.

Definition add : t -> t -> t := SFadd prec emax.
Definition sub : t -> t -> t := SFsub prec emax.
Definition mul : t -> t -> t := SFmul prec emax.
Definition ltb : t -> t -> bool := SFltb.

Definition signbit (x : t) : bool :=
  match x with
  | S754_zero s | S754_infinity s | S754_finite s _ _ => s
  | S754_nan => false
  end.

Definition is_finite (x : t) : bool :=
  match x with
  | S754_zero _ | S754_finite _ _ _ => true
  | S754_infinity _ | S754_nan => false
  end.

(** The integer part of a finite number (truncation towards zero);
    [Z.shiftl] by a negative amount shifts to the right. *)
Definition to_Z (x : t) : Z :=
  match x with
  | S754_finite s m e => cond_Zopp s (Z.shiftl (Zpos m) e)
  | _ => 0
  end.

(** *** [Number::toString] in radix 10

    For a finite number [x] that is not zero the language takes integers
    [n], [k] and [s] with [k >= 1], [10 ^ (k - 1) <= s < 10 ^ k], such that
    [s * 10 ^ (n - k)] denotes [x] (it rounds to [x]) and [k] is as small as
    possible; of several such [s] the one closest to [x].  The digits of
    [s] are then laid out with zeros, a decimal point or an exponent
    according to [n]. *)

(** The decimal digits of a positive integer. *)
Definition digits_of (s : Z) : string := NilEmpty.string_of_int (Z.to_int s).

Fixpoint zeros (n : nat) : string :=
  match n with
  | O => EmptyString
  | S n' => String "0" (zeros n')
  end.

(** The ratio of [a * 2 ^ p] to [10 ^ t] is [num a p t / den p t]. *)
Definition num (a p t : Z) : Z := a * 2 ^ Z.max p 0 * 10 ^ Z.max (- t) 0.
Definition den (p t : Z) : Z := 2 ^ Z.max (- p) 0 * 10 ^ Z.max t 0.

(** The least [n], from [n] on, with [m * 2 ^ e < 10 ^ n]. *)
Fixpoint decimal_exponent (fuel : nat) (m : positive) (e n : Z) : Z :=
  match fuel with
  | O => n
  | S fuel' =>
      if num (Z.pos m) e n <? den e n then n
      else decimal_exponent fuel' m e (n + 1)
  end.

Definition ceiling (a d : Z) : Z := - ((- a) / d).

(** The integer nearest to [a / d], the even one of two. *)
Definition nearest (a d : Z) : Z :=
  let q := a / d in
  let r := a mod d in
  match 2 * r ?= d with
  | Lt => q
  | Gt => q + 1
  | Eq => if Z.even q then q else q + 1
  end.

(** The [k]-digit [s] closest to [m * 2 ^ e / 10 ^ (n - k)] among those for
    which [s * 10 ^ (n - k)] rounds to [m * 2 ^ e], if there is one.  The
    reals that round to [m * 2 ^ e] lie between the midpoints with its two
    neighbours, [m * 2 ^ e - 2 ^ (e - 1)] (or [- 2 ^ (e - 2)] when the
    neighbour below is in the binade below) and [m * 2 ^ e + 2 ^ (e - 1)];
    a midpoint rounds to the number whose mantissa is even.  Everything is
    counted in units of [2 ^ (e - 2)]. *)
Definition candidate (m : positive) (e k n : Z) : option Z :=
  let t := n - k in
  let d := den (e - 2) t in
  let below := if (Z.pos m =? 2 ^ 52) && (-1074 <? e) then 1 else 2 in
  let lo := num (4 * Z.pos m - below) (e - 2) t in
  let hi := num (4 * Z.pos m + 2) (e - 2) t in
  let closed := Z.even (Z.pos m) in
  let s_lo :=
    Z.max (10 ^ (k - 1)) (if closed then ceiling lo d else lo / d + 1) in
  let s_hi :=
    Z.min (10 ^ k - 1) (if closed then hi / d else ceiling hi d - 1) in
  if s_lo <=? s_hi
  then Some (Z.max s_lo (Z.min s_hi (nearest (num (4 * Z.pos m) (e - 2) t) d)))
  else None.

(** The triple [(s, k, n)] with the least [k], from [k] on.  With
    [10 ^ (n - 1) <= m * 2 ^ e < 10 ^ n], a decimal that rounds to
    [m * 2 ^ e] has its point at [n], or at [n + 1] when it is [10 ^ n];
    17 digits always suffice. *)
Fixpoint shortest (fuel : nat) (m : positive) (e n k : Z) : Z * Z * Z :=
  match fuel with
  | O =>
      (nearest (num (4 * Z.pos m) (e - 2) (n - k)) (den (e - 2) (n - k)), k, n)
  | S fuel' =>
      match candidate m e k n, candidate m e k (n + 1) with
      | Some s, None => (s, k, n)
      | None, Some s' => (s', k, n + 1)
      | Some s, Some s' =>
          let x := num (4 * Z.pos m) (e - 2) (n - k) in
          let d := den (e - 2) (n - k) in
          if Z.abs (s * d - x) <=? Z.abs (10 * s' * d - x)
          then (s, k, n) else (s', k, n + 1)
      | None, None => shortest fuel' m e n (k + 1)
      end
  end.

(** The layout of the [k] digits of [s]: as an integer when
    [k <= n <= 21], with a decimal point inside when [0 < n <= 21], after
    [0.] and zeros when [-6 < n <= 0], and with an exponent otherwise. *)
Definition format (s k n : Z) : string :=
  let digits := digits_of s in
  if (k <=? n) && (n <=? 21) then digits ++ zeros (Z.to_nat (n - k))
  else if (0 <? n) && (n <=? 21) then
    substring 0 (Z.to_nat n) digits ++ "."
    ++ substring (Z.to_nat n) (Z.to_nat (k - n)) digits
  else if (-6 <? n) && (n <=? 0) then
    "0." ++ zeros (Z.to_nat (- n)) ++ digits
  else
    let sign : string := if 0 <=? n - 1 then "e+" else "e-" in
    let exponent : string := (sign ++ digits_of (Z.abs (n - 1)))%string in
    if k =? 1 then digits ++ exponent
    else substring 0 1 digits ++ "."
         ++ substring 1 (Z.to_nat (k - 1)) digits ++ exponent.

(** [Number::toString(x, 10)].  The search for the decimal exponent starts
    from a lower estimate, the binary exponent times [log10 2]. *)
Definition toString (x : t) : string :=
  match x with
  | S754_nan => "NaN"
  | S754_infinity false => "Infinity"
  | S754_infinity true => "-Infinity"
  | S754_zero _ => "0"
  | S754_finite sign m e =>
      let b := Z.pos (digits2_pos m) + e - 1 in
      let start := Z.min (b * 30102 / 100000) (b * 30103 / 100000) - 1 in
      let n := decimal_exponent 8 m e start in
      let '(s, k, n') := shortest 17 m e n 1 in
      ((if sign then "-" else "") ++ format s k n')%string
  end.

End Number.

(** The two functions of the [Math] object that the random integer is
    computed with. *)
Module Math.

(** [Math.floor]: NaN, the infinities and the zeros are returned as they
    are, and so is a number without fractional bits ([0 <= e]).  Otherwise
    the mantissa, taken with its sign, is shifted right, which rounds
    towards minus infinity; the quotient has at most 53 bits, so
    converting it back is exact. *)
Definition floor (x : Number.t) : Number.t :=
  match x with
  | S754_finite s m e =>
      if 0 <=? e then x
      else binary_normalize Number.prec Number.emax
             (Z.shiftr (cond_Zopp s (Zpos m)) (- e)) 0 false
  | _ => x
  end.

(** What [Math.random()] may return: "a Number value with positive sign,
    greater than or equal to +0 but strictly less than 1": a binary64
    value in canonical form, with the sign bit clear, below 1. *)
Definition random_range (x : Number.t) : bool :=
  valid_binary Number.prec Number.emax x
  && negb (Number.signbit x)
  && Number.ltb x (Number.of_Z 1).

End Math.

(** ** The random integer of lodash *)

Module lodash.

(** Modelled from the spec: [_.random] belongs to the lodash package that
    [index.js] requires, and the package is not part of the sources.  The
    spec asks for a "uniformly distributed random integer in the inclusive
    range" of the two bounds, from "a bounded-range random-integer
    generator".  The generator written here is the one of lodash for
    integer bounds, [lower + floor(Math.random() * (upper - lower + 1))],
    every operation being the binary64 one; [rand] is the value returned
    by the single call of [Math.random()]. *)
Definition baseRandom (lower upper rand : Number.t) : Number.t :=
  Number.add lower
    (Math.floor
       (Number.mul rand
          (Number.add (Number.sub upper lower) (Number.of_Z 1)))).

(** Modelled from the spec: [_.random(lower, upper)] on two integer
    bounds, which lodash swaps when they come in the wrong order before
    calling [baseRandom]. *)
Definition random (lower upper rand : Number.t) : Number.t :=
  if Number.ltb upper lower
  then baseRandom upper lower rand
  else baseRandom lower upper rand.

End lodash.

(** ** Values, completions and the state outside of the function *)

(** The primitive values of the language.  The response is an object; no
    object is ever converted to a string by the handler, and objects are
    kept apart from the values that [ToString] and [JSON.stringify] take
    here. *)
Inductive value : Type :=
| VUndefined
| VNull
| VBoolean (b : bool)
| VNumber (x : Number.t)
| VBigInt (z : Z)
| VString (s : string)
| VSymbol (description : string).

(** An ordinary object with string-keyed data properties. *)
Definition object : Type := gmap string value.

Inductive exception : Type :=
| TypeError (message : string).

(** The outcome of evaluating an expression or a statement list. *)
Inductive completion (A : Type) : Type :=
| Normal (a : A)
| Throw (e : exception).

Arguments Normal {A} a.
Arguments Throw {A} e.

(** The outcome of an [async] function: the promise it returns is settled
    when the body completes, since the body has no [await]. *)
Inductive promise (A : Type) : Type :=
| Fulfilled (a : A)
| Rejected (e : exception).

Arguments Fulfilled {A} a.
Arguments Rejected {A} e.

(** What a statement of the module could read or write apart from its own
    local bindings: the global bindings, what has been written to the
    output streams, and the generator behind [Math.random()].  The
    generator is the engine's and its algorithm is implementation-defined:
    its state is kept as the number of draws that were taken from it. *)
Record world : Type := {
  globals : gmap string value;
  output : list string;
  random_calls : nat
}.

(** The world after one more draw was taken from the generator. *)
Definition advance_random (w : world) : world :=
  {| globals := globals w;
     output := output w;
     random_calls := S (random_calls w) |}.

(** A computation may complete abruptly and may change the [world]. *)
Definition js (A : Type) : Type := world -> completion A * world.

Definition ret {A : Type} (a : A) : js A := fun w => (Normal a, w).

Definition bind {A B : Type} (m : js A) (k : A -> js B) : js B :=
  fun w =>
    match m w with
    | (Normal a, w') => k a w'
    | (Throw e, w') => (Throw e, w')
    end.

(** An operation of the language that does not touch the [world]. *)
Definition lift {A : Type} (c : completion A) : js A := fun w => (c, w).

Notation "'let*' x ':=' m 'in' k" := (bind m (fun x => k))
  (at level 10, x name, m at level 100, k at level 200).

(** [Math.random()]: the call advances the generator, and returns the
    draw that the generator yields at this call, [rand]. *)
Definition Math_random (rand : Number.t) : js Number.t :=
  fun w => (Normal rand, advance_random w).

(** The call [_.random(lower, upper)]: lodash takes one draw from
    [Math.random()] and computes [lodash.random] from it. *)
Definition lodash_random (lower upper rand : Number.t) : js Number.t :=
  let* drawn := Math_random rand in
  ret (lodash.random lower upper drawn).

(** Calling an [async] function whose body is [m]. *)
Definition async {A : Type} (m : js A) : world -> promise A * world :=
  fun w =>
    match m w with
    | (Normal a, w') => (Fulfilled a, w')
    | (Throw e, w') => (Rejected e, w')
    end.

(** The decimal digits of an integer, with a minus sign when negative. *)
Definition decimal (z : Z) : string := NilEmpty.string_of_int (Z.to_int z).

(** The abstract operation [ToString], which a template literal applies to
    each substitution. *)
Definition ToString (v : value) : completion string :=
  match v with
  | VUndefined => Normal "undefined"
  | VNull => Normal "null"
  | VBoolean b => Normal (if b then "true" else "false")
  | VNumber x => Normal (Number.toString x)
  | VBigInt z => Normal (decimal z)
  | VString s => Normal s
  | VSymbol _ => Throw (TypeError "Cannot convert a Symbol value to a string")
  end.

(** A template literal with one substitution, [`head${v}tail`]. *)
Definition template (head : string) (v : value) (tail : string)
  : completion string :=
  match ToString v with
  | Normal s => Normal (head ++ s ++ tail)%string
  | Throw e => Throw e
  end.

(** ** JSON *)

(** Strings are sequences of code units below 256 here (the Latin-1 range,
    which holds every string that the handlers build): the code units from
    256 on, and with them the surrogates, which [JSON.stringify] writes as
    [\udXXX] when they are alone, are not part of this model. *)
Module JSON.

Definition dquote : ascii := "034".
Definition backslash : ascii := "\".

Definition hex_digit (n : N) : ascii :=
  ascii_of_N (if n <? 10 then 48 + n else 87 + n)%N.

(** The escape [\u00XX] of a code unit without a short escape. *)
Definition unicode_escape (c : ascii) : string :=
  let n := N_of_ascii c in
  String backslash
    (String "u"
       (String "0"
          (String "0"
             (String (hex_digit (n / 16))
                (String (hex_digit (n mod 16)) EmptyString))))).

(** One code unit of [QuoteJSONString]: backspace, tab, line feed, form
    feed, carriage return, the double quote and the backslash have a short
    escape, the other code units below 0x20 are written [\u00XX], and any
    other code unit stands for itself. *)
Definition quote_char (c : ascii) : string :=
  match N_of_ascii c with
  | 8 => "\b"
  | 9 => "\t"
  | 10 => "\n"
  | 12 => "\f"
  | 13 => "\r"
  | 34 => String backslash (String dquote EmptyString)
  | 92 => "\\"
  | n => if n <? 32 then unicode_escape c else String c EmptyString
  end%N.

Fixpoint quote_chars (s : string) : string :=
  match s with
  | EmptyString => EmptyString
  | String c s' => quote_char c ++ quote_chars s'
  end.

Definition QuoteJSONString (s : string) : string :=
  String dquote (quote_chars s ++ String dquote EmptyString).

(** [JSON.stringify(value)] on a primitive value, without replacer and
    indentation. *)
Definition stringify (v : value) : completion value :=
  match v with
  | VNull => Normal (VString "null")
  | VBoolean b => Normal (VString (if b then "true" else "false"))
  | VNumber x =>
      Normal (VString (if Number.is_finite x then Number.toString x
                       else "null"))
  | VString s => Normal (VString (QuoteJSONString s))
  | VBigInt _ => Throw (TypeError "Do not know how to serialize a BigInt")
  | VUndefined | VSymbol _ => Normal VUndefined
  end.

End JSON.

(** ** Reading a response back

    What a caller that checks the response does with the body: decode the
    JSON text of a string, strip the fixed prefix, read the integer. *)

Module Reader.

Definition hex_value (c : ascii) : option N :=
  let n := N_of_ascii c in
  if (48 <=? n)%N && (n <=? 57)%N then Some (n - 48)%N
  else if (97 <=? n)%N && (n <=? 102)%N then Some (n - 87)%N
  else if (65 <=? n)%N && (n <=? 70)%N then Some (n - 55)%N
  else None.

Definition hex4 (a b c d : ascii) : option N :=
  match hex_value a, hex_value b, hex_value c, hex_value d with
  | Some a, Some b, Some c, Some d =>
      Some (((a * 16 + b) * 16 + c) * 16 + d)%N
  | _, _, _, _ => None
  end.

(** Strings are sequences of code units below 256 here; an escape that
    denotes a larger code unit is not read. *)
Definition code_unit (n : N) : option ascii :=
  if (n <? 256)%N then Some (ascii_of_N n) else None.

(** The character that follows a backslash in a short escape. *)
Definition unescape (c : ascii) : option ascii :=
  match c with
  | "034" => Some "034"
  | "\" => Some "\"
  | "/" => Some "/"
  | "b" => Some "008"
  | "f" => Some "012"
  | "n" => Some "010"
  | "r" => Some "013"
  | "t" => Some "009"
  | _ => None
  end%char.

Definition cons_char (a : option ascii) (t : option string) : option string :=
  match a, t with
  | Some a, Some t => Some (String a t)
  | _, _ => None
  end.

(** The characters of a JSON string up to the closing quote, which has to
    end the text: a backslash starts an escape, a raw code unit below 0x20
    and an unterminated string are refused. *)
Fixpoint parse_chars (s : string) : option string :=
  match s with
  | EmptyString => None
  | String c rest =>
      if Ascii.eqb c JSON.dquote then
        match rest with
        | EmptyString => Some EmptyString
        | String _ _ => None
        end
      else if Ascii.eqb c JSON.backslash then
        match rest with
        | String "u" (String h1 (String h2 (String h3 (String h4 rest')))) =>
            match hex4 h1 h2 h3 h4 with
            | Some n => cons_char (code_unit n) (parse_chars rest')
            | None => None
            end
        | String e rest' => cons_char (unescape e) (parse_chars rest')
        | EmptyString => None
        end
      else if (N_of_ascii c <? 32)%N then None
      else cons_char (Some c) (parse_chars rest)
  end.

(** [JSON.parse] on a text that is one string literal. *)
Definition parse_string (text : string) : option string :=
  match text with
  | String c rest => if Ascii.eqb c JSON.dquote then parse_chars rest else None
  | EmptyString => None
  end.

(** [strip_prefix p s] is what follows [p] in [s]. *)
Fixpoint strip_prefix (p s : string) : option string :=
  match p, s with
  | EmptyString, _ => Some s
  | String a p', String b s' =>
      if Ascii.eqb a b then strip_prefix p' s' else None
  | String _ _, EmptyString => None
  end.

(** An integer in decimal notation, as the language prints it: no empty
    digit sequence, no superfluous zero or sign. *)
Definition parse_integer (s : string) : option Z :=
  match NilEmpty.int_of_string s with
  | Some d =>
      let z := Z.of_int d in
      if String.eqb (decimal z) s then Some z else None
  | None => None
  end.

(** The [<N>] of a message [Random number: <N>]. *)
Definition message_number (message : string) : option Z :=
  match strip_prefix "Random number: " message with
  | Some digits => parse_integer digits
  | None => None
  end.

(** The text of the [body] property of a response. *)
Definition body_text (response : object) : option string :=
  match response !! "body" with
  | Some (VString text) => Some text
  | _ => None
  end.

(** The number that a settled invocation carries in its body. *)
Definition response_number (p : promise object) : option Z :=
  match p with
  | Fulfilled response =>
      match body_text response with
      | Some text =>
          match parse_string text with
          | Some message => message_number message
          | None => None
          end
      | None => None
      end
  | Rejected _ => None
  end.

End Reader.

(** ** The handler *)

Module exports.

(** The body of the arrow function.  [event] is the invocation event,
    whatever its type; [rand] is what [Math.random()] returns to lodash
    during this invocation. *)
Definition handler_body {Event : Type} (event : Event) (rand : Number.t)
  : js object :=
  let maxValue := Number.of_Z 100 in
  let* randomNumber := lodash_random (Number.of_Z 0) maxValue rand in
  let* message :=
    lift (template "Random number: " (VNumber randomNumber) "") in
  let* body := lift (JSON.stringify (VString message)) in
  let response : object :=
    <["body" := body]> (<["statusCode" := VNumber (Number.of_Z 200)]> ∅) in
  ret response.

(** [exports.handler = async (event) => { ... }] *)
Definition handler {Event : Type} (event : Event) (rand : Number.t)
  : world -> promise object * world :=
  async (handler_body event rand).

End exports.

(** ** The handler of the README

    The handler that the README has the reader deploy from the console
    before [index.js] replaces it:

<<
    exports.handler = async (event) => {
      return {
        statusCode: 200,
        body: JSON.stringify('Hello from Lambda!'),
      };
    };
>> *)

Module README.

Definition handler_body {Event : Type} (event : Event) : js object :=
  let* body := lift (JSON.stringify (VString "Hello from Lambda!")) in
  ret (<["body" := body]> (<["statusCode" := VNumber (Number.of_Z 200)]> ∅)).

Definition handler {Event : Type} (event : Event)
  : world -> promise object * world :=
  async (handler_body event).

End README.

(** An invocation event: the empty record. *)
Definition empty_event : object := ∅.

(** A world to run examples in. *)
Definition initial_world : world :=
  {| globals := ∅; output := []; random_calls := 0 |}.

(** The draw [(2 N + 1) / 202], in the middle of the draws that give [N]. *)
Definition draw_for (N : Z) : Number.t :=
  SFdiv Number.prec Number.emax (Number.of_Z (2 * N + 1)) (Number.of_Z 202).

(** An invocation by the runtime when the generator of the engine is
    [generator]: [generator k] is the draw that it yields when [k] draws
    were taken from it before. *)
Definition invoke {Event : Type} (generator : nat -> Number.t) (event : Event)
  : world -> promise object * world :=
  fun w => exports.handler event (generator (random_calls w)) w.

(** A generator for examples, whose draws give the numbers 0, 1, 2, ... *)
Definition counting_generator (k : nat) : Number.t := draw_for (Z.of_nat k).

(** The integers from [0] to [n - 1]. *)
Definition upto (n : nat) : list Z := map Z.of_nat (seq 0 n).

(** * Rounding in binary64

    What [SpecFloat] does when it shifts a mantissa to the right and rounds
    it to nearest, ties to even. *)
Section Rounding.

(** [SpecFloat] iterates along the binary digits of the count. *)
Lemma iter_pos_nat {A : Type} (f : A -> A) (p : positive) (x : A) :
  SpecFloat.iter_pos f p x = Nat.iter (Pos.to_nat p) f x.
Proof.
  revert x. induction p as [p IH | p IH |]; intros x; simpl SpecFloat.iter_pos.
  - rewrite !IH, Pos2Nat.inj_xI.
    replace (S (2 * Pos.to_nat p))%nat
      with (Pos.to_nat p + S (Pos.to_nat p))%nat by lia.
    now rewrite Nat.iter_add, Nat.iter_succ_r.
  - rewrite !IH, Pos2Nat.inj_xO.
    replace (2 * Pos.to_nat p)%nat
      with (Pos.to_nat p + Pos.to_nat p)%nat by lia.
    now rewrite Nat.iter_add.
  - reflexivity.
Qed.

Lemma shr_1_spec (r : shr_record) :
  0 <= shr_m r ->
  shr_m (shr_1 r) = shr_m r / 2 /\ shr_r (shr_1 r) = Z.odd (shr_m r).
Proof.
  destruct r as [m r s]; simpl. intros Hm.
  destruct m as [| [p | p |] | p]; try lia; simpl shr_m; simpl shr_r.
  - now split.
  - split; [| reflexivity]. rewrite <- Z.div2_div. reflexivity.
  - split; [| reflexivity]. rewrite <- Z.div2_div. reflexivity.
  - now split.
Qed.

(** After [S k] one-bit shifts the mantissa has lost its [S k] low bits and
    the round bit is the last bit that was shifted out. *)
Lemma shr_iter_spec (k : nat) (r : shr_record) :
  0 <= shr_m r ->
  shr_m (Nat.iter (S k) shr_1 r) = shr_m r / 2 ^ Z.of_nat (S k)
  /\ shr_r (Nat.iter (S k) shr_1 r) = Z.odd (shr_m r / 2 ^ Z.of_nat k).
Proof.
  intros Hm. induction k as [| k [IHm IHr]].
  - simpl Nat.iter. destruct (shr_1_spec r Hm) as [-> ->].
    change (2 ^ Z.of_nat 1) with 2. change (2 ^ Z.of_nat 0) with 1.
    now rewrite Z.div_1_r.
  - rewrite Nat.iter_succ.
    assert (Hpos : 0 <= shr_m (Nat.iter (S k) shr_1 r)).
    { rewrite IHm. apply Z.div_pos; [lia |]. apply Z.pow_pos_nonneg; lia. }
    destruct (shr_1_spec _ Hpos) as [-> ->]. rewrite IHm.
    split; [| reflexivity].
    rewrite Z.div_div
      by (try apply Z.pow_nonzero; try apply Z.pow_pos_nonneg; lia).
    f_equal. rewrite (Nat2Z.inj_succ (S k)), Z.pow_succ_r by lia. lia.
Qed.

(** Rounding to nearest keeps the shifted mantissa or adds one to it, and
    adds one only when the bit shifted out last is set. *)
Lemma round_nearest_even_cases (r : shr_record) :
  round_nearest_even (shr_m r) (loc_of_shr_record r) = shr_m r
  \/ (shr_r r = true
      /\ round_nearest_even (shr_m r) (loc_of_shr_record r) = shr_m r + 1).
Proof.
  destruct r as [m [] []]; simpl; auto.
  destruct (Z.even m); auto.
Qed.

Lemma odd_div_pow2 (m : Z) (k : nat) :
  0 <= m -> Z.odd (m / 2 ^ Z.of_nat k) = true ->
  (m / 2 ^ Z.of_nat (S k) + 1) * 2 ^ Z.of_nat (S k)
  <= m + 2 ^ Z.of_nat (S k) / 2.
Proof.
  intros Hm Hodd.
  assert (Hk : 0 < 2 ^ Z.of_nat k) by (apply Z.pow_pos_nonneg; lia).
  rewrite (Nat2Z.inj_succ k), Z.pow_succ_r by lia.
  rewrite (Z.mul_comm 2 (2 ^ Z.of_nat k)), Z.div_mul by lia.
  rewrite <- Z.div_div by lia.
  set (a := m / 2 ^ Z.of_nat k) in *.
  assert (Ha : a * 2 ^ Z.of_nat k <= m).
  { unfold a. rewrite Z.mul_comm. apply Z.mul_div_le. lia. }
  rewrite (Zodd_div2 a) in Ha.
  2:{ apply Zodd_bool_iff. exact Hodd. }
  rewrite Z.div2_div in Ha. nia.
Qed.

(** Shifting an exact mantissa by [n] bits and rounding to nearest: the
    rounded mantissa, scaled back, exceeds [m] by at most half a unit of
    the new last place. *)
Lemma shr_spec (m e n : Z) :
  0 <= m ->
  exists r : shr_record,
    shr (shr_record_of_loc m loc_Exact) e n = (r, e + Z.max 0 n)
    /\ shr_m r = m / 2 ^ Z.max 0 n
    /\ round_nearest_even (shr_m r) (loc_of_shr_record r) * 2 ^ Z.max 0 n
       <= m + 2 ^ Z.max 0 n / 2.
Proof.
  intros Hm. destruct n as [| p | p].
  - exists (shr_record_of_loc m loc_Exact).
    change (Z.max 0 0) with 0. change (2 ^ 0) with 1. change (1 / 2) with 0.
    simpl. rewrite Z.add_0_r, Z.div_1_r. repeat split. lia.
  - destruct (Pos2Nat.is_succ p) as [k Hk].
    exists (SpecFloat.iter_pos shr_1 p (shr_record_of_loc m loc_Exact)).
    replace (Z.max 0 (Z.pos p)) with (Z.of_nat (S k)) by lia.
    unfold shr. rewrite iter_pos_nat, Hk.
    split; [f_equal; lia |].
    destruct (shr_iter_spec k (shr_record_of_loc m loc_Exact) Hm) as [Hq Hr].
    change (shr_m (shr_record_of_loc m loc_Exact)) with m in Hq, Hr.
    change (shr_record_of_loc m loc_Exact)
      with (Build_shr_record m false false) in *.
    split; [exact Hq |].
    destruct (round_nearest_even_cases
                (Nat.iter (S k) shr_1 (Build_shr_record m false false)))
      as [-> | [Hodd ->]].
    + rewrite Hq.
      assert (0 < 2 ^ Z.of_nat (S k)) by (apply Z.pow_pos_nonneg; lia).
      assert (m / 2 ^ Z.of_nat (S k) * 2 ^ Z.of_nat (S k) <= m).
      { rewrite Z.mul_comm. apply Z.mul_div_le. lia. }
      assert (0 <= 2 ^ Z.of_nat (S k) / 2) by (apply Z.div_pos; lia).
      lia.
    + rewrite Hq. rewrite Hr in Hodd. now apply odd_div_pow2.
  - exists (shr_record_of_loc m loc_Exact).
    change (Z.max 0 (Z.neg p)) with 0. change (2 ^ 0) with 1.
    change (1 / 2) with 0.
    simpl. rewrite Z.add_0_r, Z.div_1_r. repeat split. lia.
Qed.

(** The number of binary digits. *)
Lemma digits2_pos_bounds (p : positive) :
  2 ^ (Z.pos (digits2_pos p) - 1) <= Z.pos p < 2 ^ Z.pos (digits2_pos p).
Proof.
  induction p as [p IH | p IH |]; simpl digits2_pos.
  - rewrite Pos2Z.inj_succ, (Pos2Z.inj_xI p).
    replace (Z.succ (Z.pos (digits2_pos p)) - 1)
      with (Z.succ (Z.pos (digits2_pos p) - 1)) by lia.
    rewrite !Z.pow_succ_r by lia. lia.
  - rewrite Pos2Z.inj_succ, (Pos2Z.inj_xO p).
    replace (Z.succ (Z.pos (digits2_pos p)) - 1)
      with (Z.succ (Z.pos (digits2_pos p) - 1)) by lia.
    rewrite !Z.pow_succ_r by lia. lia.
  - simpl. lia.
Qed.

Lemma Zdigits2_bounds (m : Z) :
  0 < m -> 2 ^ (Zdigits2 m - 1) <= m < 2 ^ Zdigits2 m.
Proof.
  destruct m as [| p | p]; try lia. intros _. apply digits2_pos_bounds.
Qed.

Lemma Zdigits2_le (m k : Z) : 0 <= k -> 0 <= m < 2 ^ k -> Zdigits2 m <= k.
Proof.
  intros Hk [Hm Hlt]. destruct (Z.eq_dec m 0) as [-> | Hne]; [simpl; lia |].
  destruct (Zdigits2_bounds m) as [Hlo _]; [lia |].
  destruct (Z.le_gt_cases (Zdigits2 m) k) as [| Hgt]; [assumption |].
  assert (2 ^ k <= 2 ^ (Zdigits2 m - 1)) by (apply Z.pow_le_mono_r; lia).
  lia.
Qed.

End Rounding.

(** The result of [binary_round_aux] on an exact product or integer: the
    mantissa is shifted by [n] bits and rounded to [M], which is within half
    a unit of the shifted mantissa, and a carry into a 54th bit is shifted
    out once more. *)

Section RoundAux.

Variables prec emax : Z.

Lemma binary_round_aux_spec (s : bool) (mx ex : Z) :
  0 <= mx ->
  exists M n2 : Z,
    let n := Z.max 0 (fexp prec emax (Zdigits2 mx + ex) - ex) in
    mx / 2 ^ n <= M <= mx / 2 ^ n + 1
    /\ M * 2 ^ n <= mx + 2 ^ n / 2
    /\ n2 = Z.max 0 (fexp prec emax (Zdigits2 M + (ex + n)) - (ex + n))
    /\ binary_round_aux prec emax s mx ex loc_Exact =
       match M / 2 ^ n2 with
       | Z0 => S754_zero s
       | Zpos m =>
           if ex + n + n2 <=? emax - prec
           then S754_finite s m (ex + n + n2)
           else S754_infinity s
       | Zneg _ => S754_nan
       end.
Proof.
  intros Hmx. unfold binary_round_aux, shr_fexp.
  destruct (shr_spec mx ex (fexp prec emax (Zdigits2 mx + ex) - ex) Hmx)
    as (r & -> & Hq & Hround).
  set (n := Z.max 0 (fexp prec emax (Zdigits2 mx + ex) - ex)) in *.
  set (M := round_nearest_even (shr_m r) (loc_of_shr_record r)) in *.
  assert (Hn : 0 < 2 ^ n) by (apply Z.pow_pos_nonneg; lia).
  assert (Hq0 : 0 <= mx / 2 ^ n) by (apply Z.div_pos; lia).
  assert (HM : mx / 2 ^ n <= M <= mx / 2 ^ n + 1).
  { rewrite <- Hq. unfold M.
    destruct (round_nearest_even_cases r) as [-> | [_ ->]]; lia. }
  destruct (shr_spec M (ex + n)
              (fexp prec emax (Zdigits2 M + (ex + n)) - (ex + n)))
    as (r2 & -> & Hq2 & _); [lia |].
  exists M, (Z.max 0 (fexp prec emax (Zdigits2 M + (ex + n)) - (ex + n))).
  cbv zeta. rewrite Hq2. repeat split; try lia.
Qed.

End RoundAux.

(** * The draws of the random source *)

Section UnitInterval.

Lemma of_Z_1 : Number.of_Z 1 = S754_finite false 4503599627370496 (-52).
Proof. reflexivity. Qed.

Lemma ltb_one_inv (m : positive) (e : Z) :
  Number.ltb (S754_finite false m e) (Number.of_Z 1) = true ->
  e < -52 \/ (e = -52 /\ Z.pos m < 4503599627370496).
Proof.
  rewrite of_Z_1. unfold Number.ltb, SFltb, SFcompare.
  destruct (Z.compare_spec e (-52)) as [He | He | He]; try discriminate.
  - rewrite Pos.compare_cont_spec. unfold Pos.switch_Eq.
    rewrite (Pos2Z.inj_compare m 4503599627370496).
    destruct (Z.compare_spec (Z.pos m) (Z.pos 4503599627370496));
      try discriminate.
    intros _. right. split; assumption.
  - intros _. left. exact He.
Qed.

Lemma bounded_inv (m : positive) (e : Z) :
  bounded Number.prec Number.emax m e = true ->
  e = Z.max (Z.pos (digits2_pos m) + e - 53) (-1074).
Proof.
  unfold bounded, canonical_mantissa. intros H.
  apply andb_prop in H as [H _]. apply Z.eqb_eq in H.
  symmetry. exact H.
Qed.

(** A draw is [+0] or [m * 2 ^ e] with a mantissa of at most 53 bits and an
    exponent of at most -53. *)
Lemma random_range_inv (x : Number.t) :
  Math.random_range x = true ->
  x = S754_zero false
  \/ exists (m : positive) (e : Z),
       x = S754_finite false m e
       /\ -1074 <= e <= -53 /\ Z.pos m < 2 ^ 53.
Proof.
  unfold Math.random_range. intros H.
  apply andb_prop in H as [H Hlt]. apply andb_prop in H as [Hv Hs].
  destruct x as [[] | [] | | [] m e]; try discriminate; auto.
  right. exists m, e. split; [reflexivity |].
  apply bounded_inv in Hv. apply ltb_one_inv in Hlt.
  pose proof (digits2_pos_bounds m) as [Hlo Hhi].
  assert (Hd : Z.pos (digits2_pos m) <= 53) by lia.
  assert (Hm : Z.pos m < 2 ^ 53).
  { apply Z.lt_le_trans with (1 := Hhi). apply Z.pow_le_mono_r; lia. }
  split; [| exact Hm].
  destruct Hlt as [He | [He Hlt]]; [lia |].
  exfalso.
  assert (Hd' : Z.pos (digits2_pos m) = 53) by lia.
  rewrite Hd' in Hlo. change (2 ^ (53 - 1)) with 4503599627370496 in Hlo.
  lia.
Qed.

End UnitInterval.

(** * The product with 101 *)

Section Product.

(** The draw [m * 2 ^ e], below 1, times 101, rounded to nearest and then
    floored, is an integer [N] from 0 to 100; it is [floor (101 * draw)],
    or the next integer when rounding the product reached it, which needs
    the product to be within [2 ^ -47] of that integer. *)
Lemma floor_mul_101 (m : positive) (e : Z) :
  -1074 <= e <= -53 -> Z.pos m < 2 ^ 53 ->
  exists N : Z,
    0 <= N <= 100
    /\ Math.floor (Number.mul (S754_finite false m e) (Number.of_Z 101))
       = Number.of_Z N
    /\ 101 * Z.pos m / 2 ^ (- e) <= N
    /\ N * 2 ^ (- e) <= 101 * Z.pos m + 64.
Proof.
  intros He Hm.
  change (Number.of_Z 101) with (S754_finite false 7107243161944064 (-46)).
  unfold Number.mul. simpl SFmul.
  set (P := Z.pos (m * 7107243161944064)).
  assert (HP : P = 101 * Z.pos m * 2 ^ 46) by (unfold P; lia).
  assert (HP0 : 0 < P) by (unfold P; lia).
  destruct (binary_round_aux_spec Number.prec Number.emax false P (e + -46))
    as (M & n2 & HM & Hround & Hn2 & ->); [lia |].
  unfold fexp, emin, Number.prec, Number.emax in *.
  set (n := Z.max 0 (Z.max (Zdigits2 P + (e + -46) - 53) (3 - 1024 - 53)
                     - (e + -46))) in *.
  assert (HdP : Zdigits2 P <= 106).
  { apply Zdigits2_le; [lia |]. split; [lia |].
    rewrite HP. change (2 ^ 106) with (2 ^ 53 * 2 ^ 53). nia. }
  assert (Hn : 0 <= n <= 53) by lia.
  assert (HnP : Zdigits2 P - 53 <= n) by lia.
  assert (Hpn : 0 < 2 ^ n) by (apply Z.pow_pos_nonneg; lia).
  assert (Hpn' : 2 ^ n <= 2 ^ 53) by (apply Z.pow_le_mono_r; lia).
  assert (Hhalf : 2 ^ n / 2 <= 2 ^ 52).
  { apply Z.div_le_upper_bound; [lia |]. exact Hpn'. }
  assert (Hq : P / 2 ^ n < 2 ^ 53).
  { apply Z.div_lt_upper_bound; [lia |].
    destruct (Zdigits2_bounds P HP0) as [_ Hhi].
    apply Z.lt_le_trans with (1 := Hhi).
    rewrite <- Z.pow_add_r by lia. apply Z.pow_le_mono_r; lia. }
  assert (Hq0 : 0 <= P / 2 ^ n) by (apply Z.div_pos; lia).
  assert (HdM : Zdigits2 M <= 54).
  { apply Zdigits2_le; [lia |]. change (2 ^ 54) with (2 * 2 ^ 53). lia. }
  assert (Hn2' : 0 <= n2 <= 1) by lia.
  assert (Hpn2 : 0 < 2 ^ n2) by (apply Z.pow_pos_nonneg; lia).
  assert (HM3 : M / 2 ^ n2 * 2 ^ n2 <= M).
  { rewrite Z.mul_comm. apply Z.mul_div_le. lia. }
  assert (HM30 : 0 <= M / 2 ^ n2) by (apply Z.div_pos; lia).
  set (e2 := e + -46 + n + n2) in *.
  assert (He2 : e2 <= -45) by (unfold e2; lia).
  assert (Hpe2 : 0 < 2 ^ (- e2)) by (apply Z.pow_pos_nonneg; lia).
  assert (Hpe : 2 ^ 53 <= 2 ^ (- e)) by (apply Z.pow_le_mono_r; lia).
  assert (Hsplit : 2 ^ n * 2 ^ n2 * 2 ^ (- e2) = 2 ^ (- e) * 2 ^ 46).
  { rewrite <- !Z.pow_add_r by lia. f_equal. unfold e2. lia. }
  (* The integer part of the rounded product. *)
  set (N := M / 2 ^ n2 / 2 ^ (- e2)).
  assert (HN0 : 0 <= N) by (apply Z.div_pos; lia).
  assert (HNle : N * 2 ^ (- e2) <= M / 2 ^ n2).
  { unfold N. rewrite Z.mul_comm. apply Z.mul_div_le. lia. }
  assert (Hlow : 101 * Z.pos m / 2 ^ (- e) <= N).
  { rewrite <- (Z.div_mul_cancel_r _ _ (2 ^ 46)) by lia.
    rewrite <- HP, <- Hsplit, <- !Z.div_div by lia.
    unfold N. apply Z.div_le_mono; [lia |].
    apply Z.div_le_mono; [lia |]. lia. }
  assert (Hchain : N * (2 ^ n * 2 ^ n2 * 2 ^ (- e2)) <= P + 2 ^ 52).
  { assert (H1 : N * 2 ^ (- e2) * 2 ^ n2 <= M).
    { apply Z.le_trans with (2 := HM3).
      apply Z.mul_le_mono_nonneg_r; lia. }
    assert (H2 : N * 2 ^ (- e2) * 2 ^ n2 * 2 ^ n <= M * 2 ^ n).
    { apply Z.mul_le_mono_nonneg_r; lia. }
    lia. }
  rewrite Hsplit, HP in Hchain.
  assert (Hup : N * 2 ^ (- e) <= 101 * Z.pos m + 64).
  { apply (Z.mul_le_mono_pos_r _ _ (2 ^ 46)); lia. }
  assert (HN100 : N <= 100).
  { cut (N < 101); [lia |].
    apply (Z.mul_lt_mono_pos_r (2 ^ (- e))); lia. }
  exists N. split; [lia |]. split; [| split; assumption].
  unfold N. destruct (M / 2 ^ n2) as [| m3 | m3] eqn:EM3; [| | lia].
  - reflexivity.
  - replace (e2 <=? 1024 - 53) with true by (symmetry; apply Z.leb_le; lia).
    unfold Math.floor.
    replace (0 <=? e2) with false by (symmetry; apply Z.leb_gt; lia).
    unfold cond_Zopp. rewrite Z.shiftr_div_pow2 by lia. reflexivity.
Qed.

End Product.

(** * Quoting and reading strings *)

Section Strings.

(** Reading what was written for one code unit gives the code unit back. *)
Lemma parse_quote_char (c : ascii) (t : string) :
  Reader.parse_chars (JSON.quote_char c ++ t)
  = Reader.cons_char (Some c) (Reader.parse_chars t).
Proof.
  destruct c as [[] [] [] [] [] [] [] []]; reflexivity.
Qed.

Lemma append_assoc (a b c : string) : ((a ++ b) ++ c = a ++ (b ++ c))%string.
Proof.
  induction a as [| x a IH]; [reflexivity |].
  change (String x ((a ++ b) ++ c) = String x (a ++ (b ++ c)))%string.
  now rewrite IH.
Qed.

Lemma parse_quote_chars (s : string) :
  Reader.parse_chars (JSON.quote_chars s ++ String JSON.dquote EmptyString)
  = Some s.
Proof.
  induction s as [| c s IH]; [reflexivity |].
  simpl JSON.quote_chars. rewrite append_assoc, parse_quote_char, IH.
  reflexivity.
Qed.

(** Decoding after encoding is the identity, on every string. *)
Lemma parse_QuoteJSONString (s : string) :
  Reader.parse_string (JSON.QuoteJSONString s) = Some s.
Proof.
  unfold JSON.QuoteJSONString, Reader.parse_string.
  change (Ascii.eqb JSON.dquote JSON.dquote) with true. cbv iota.
  apply parse_quote_chars.
Qed.

Lemma quote_chars_app (a b : string) :
  (JSON.quote_chars (a ++ b) = JSON.quote_chars a ++ JSON.quote_chars b)%string.
Proof.
  induction a as [| x a IH]; [reflexivity |].
  change (JSON.quote_chars (String x a ++ b))
    with (JSON.quote_char x ++ JSON.quote_chars (a ++ b))%string.
  change (JSON.quote_chars (String x a))
    with (JSON.quote_char x ++ JSON.quote_chars a)%string.
  now rewrite IH, append_assoc.
Qed.

(** Decimal digits and the minus sign are written as they are. *)
Lemma quote_chars_uint (d : Decimal.uint) :
  JSON.quote_chars (NilEmpty.string_of_uint d) = NilEmpty.string_of_uint d.
Proof.
  induction d; simpl; [reflexivity | ..]; rewrite IHd; reflexivity.
Qed.

Lemma quote_chars_decimal (z : Z) :
  JSON.quote_chars (decimal z) = decimal z.
Proof.
  unfold decimal. destruct (Z.to_int z) as [d | d]; simpl.
  - apply quote_chars_uint.
  - rewrite quote_chars_uint. reflexivity.
Qed.

Lemma parse_integer_decimal (z : Z) :
  Reader.parse_integer (decimal z) = Some z.
Proof.
  unfold Reader.parse_integer, decimal at 1.
  rewrite NilEmpty.isi, DecimalZ.of_to.
  cbv zeta. now rewrite String.eqb_refl.
Qed.

Lemma message_number_decimal (z : Z) :
  Reader.message_number ("Random number: " ++ decimal z) = Some z.
Proof.
  unfold Reader.message_number.
  change (Reader.strip_prefix "Random number: "
            ("Random number: " ++ decimal z))
    with (Some (decimal z)).
  apply parse_integer_decimal.
Qed.

End Strings.

(** * The handler, step by step *)

Section Handler.

Lemma append_nil_r (s : string) : (s ++ "")%string = s.
Proof.
  induction s as [| c s IH]; [reflexivity |].
  change (String c (s ++ "") = String c s)%string. now rewrite IH.
Qed.

(** A property checked on [0], ..., [n - 1] holds of each of them. *)
Lemma upto_forallb (P : Z -> bool) (n : nat) :
  forallb P (upto n) = true ->
  forall z : Z, 0 <= z < Z.of_nat n -> P z = true.
Proof.
  intros H z Hz. rewrite forallb_forall in H. apply H.
  unfold upto. apply in_map_iff. exists (Z.to_nat z).
  split; [lia |]. apply in_seq. lia.
Qed.

(** [upper - lower + 1] for the bounds of the handler. *)
Lemma scale_0_100 :
  Number.add (Number.sub (Number.of_Z 100) (Number.of_Z 0)) (Number.of_Z 1)
  = Number.of_Z 101.
Proof. reflexivity. Qed.

(** [0 + N], the last step of [baseRandom] with a lower bound of 0. *)
Lemma add_zero_of_Z (N : Z) :
  0 <= N -> Number.add (Number.of_Z 0) (Number.of_Z N) = Number.of_Z N.
Proof.
  intros HN. destruct N as [| p | p]; [reflexivity | | lia].
  unfold Number.of_Z, binary_normalize, binary_round.
  destruct (shl_align p 0 _) as [mz ez].
  destruct (binary_round_aux_spec Number.prec Number.emax false (Z.pos mz) ez)
    as (M & n2 & _ & _ & _ & ->); [lia |].
  destruct (M / 2 ^ n2); [reflexivity | | reflexivity].
  destruct (_ <=? _); reflexivity.
Qed.

Lemma baseRandom_0_100 (rand : Number.t) :
  lodash.random (Number.of_Z 0) (Number.of_Z 100) rand
  = Number.add (Number.of_Z 0)
      (Math.floor (Number.mul rand (Number.of_Z 101))).
Proof.
  unfold lodash.random.
  change (Number.ltb (Number.of_Z 100) (Number.of_Z 0)) with false.
  cbv iota. unfold lodash.baseRandom. now rewrite scale_0_100.
Qed.

Lemma random_0_100_finite (m : positive) (e : Z) :
  Math.random_range (S754_finite false m e) = true ->
  exists N : Z,
    0 <= N <= 100
    /\ lodash.random (Number.of_Z 0) (Number.of_Z 100) (S754_finite false m e)
       = Number.of_Z N
    /\ 101 * Z.pos m / 2 ^ (- e) <= N
    /\ N * 2 ^ (- e) <= 101 * Z.pos m + 64.
Proof.
  intros Hrand.
  destruct (random_range_inv _ Hrand) as [H | (m' & e' & H & He & Hm)];
    [discriminate |].
  injection H as -> ->.
  destruct (floor_mul_101 m' e' He Hm) as (N & HN & Hfloor & Hlow & Hup).
  exists N. rewrite baseRandom_0_100, Hfloor.
  split; [exact HN |]. split; [apply add_zero_of_Z; lia |].
  split; assumption.
Qed.

Lemma random_0_100 (rand : Number.t) :
  Math.random_range rand = true ->
  exists N : Z,
    0 <= N <= 100
    /\ lodash.random (Number.of_Z 0) (Number.of_Z 100) rand = Number.of_Z N.
Proof.
  intros Hrand.
  destruct (random_range_inv rand Hrand) as [-> | (m & e & -> & _)].
  - exists 0. split; [lia | reflexivity].
  - destruct (random_0_100_finite m e Hrand) as (N & HN & Heq & _).
    exists N. split; assumption.
Qed.

(** [Number::toString] on numbers of each layout: fractions, the shortest
    digits that round back (0.1 + 0.2, 2 ^ 60), the switch to the exponent
    at 10 ^ 21 and at 10 ^ -7, the least and the largest number. *)
Example toString_examples :
  map Number.toString
    [ S754_finite false 4503599627370496 (-53);
      S754_finite false 7107243161944064 (-47);
      S754_finite true 6755399441055744 (-52);
      S754_finite false 5404319552844596 (-54);
      S754_finite false 4503599627370496 8;
      S754_finite false 7626878954300768 (-40);
      S754_finite false 6103515625000000 14;
      S754_finite false 7629394531250000 17;
      S754_finite false 4722366482869645 (-72);
      S754_finite false 7555786372591432 (-76);
      S754_finite false 1 (-1074);
      S754_finite false 9007199254740991 971;
      S754_zero true; S754_nan; S754_infinity true ]
  = [ "0.5"; "50.5"; "-1.5"; "0.30000000000000004";
      "1152921504606847000"; "6936.606"; "100000000000000000000";
      "1e+21"; "0.000001"; "1e-7"; "5e-324"; "1.7976931348623157e+308";
      "0"; "NaN"; "-Infinity" ].
Proof. vm_compute. reflexivity. Qed.

(** The integers that the handler formats print as their decimal digits. *)
Lemma toString_of_Z_small (N : Z) :
  0 <= N <= 100 -> Number.toString (Number.of_Z N) = decimal N.
Proof.
  intros HN. apply String.eqb_eq.
  apply (upto_forallb
           (fun N => String.eqb (Number.toString (Number.of_Z N)) (decimal N))
           101); [vm_compute; reflexivity | lia].
Qed.

(** The handler evaluated: the promise is fulfilled with the object literal
    and the world is the one it started in, one draw further. *)
Lemma handler_eq {Event : Type} (event : Event) (rand : Number.t) (w : world) :
  exports.handler event rand w
  = (Fulfilled
       (<["body" :=
            VString
              (JSON.QuoteJSONString
                 ("Random number: "
                  ++ Number.toString
                       (lodash.random (Number.of_Z 0) (Number.of_Z 100) rand)))]>
          (<["statusCode" := VNumber (Number.of_Z 200)]> (∅ : object))),
     advance_random w).
Proof.
  unfold exports.handler, exports.handler_body, async, lodash_random,
    Math_random, bind, lift, ret, template, ToString, JSON.stringify.
  now rewrite append_nil_r.
Qed.

Lemma response_number_eq {Event : Type} (event : Event) (rand : Number.t)
      (w : world) :
  Reader.response_number (fst (exports.handler event rand w))
  = Reader.message_number
      ("Random number: "
       ++ Number.toString
            (lodash.random (Number.of_Z 0) (Number.of_Z 100) rand)).
Proof.
  rewrite handler_eq. cbn [fst].
  unfold Reader.response_number, Reader.body_text, object.
  rewrite lookup_insert_eq. now rewrite parse_QuoteJSONString.
Qed.

(** The draws [draw_for 0], ..., [draw_for 100] are legal results of
    [Math.random()] and give the numbers 0, ..., 100, by evaluation. *)
Lemma draw_for_spec (N : Z) :
  0 <= N <= 100 ->
  Math.random_range (draw_for N) = true
  /\ Reader.message_number
       ("Random number: "
        ++ Number.toString
             (lodash.random (Number.of_Z 0) (Number.of_Z 100) (draw_for N)))
     = Some N.
Proof.
  intros HN.
  pose (P := fun N =>
    Math.random_range (draw_for N)
    && match Reader.message_number
               ("Random number: "
                ++ Number.toString
                     (lodash.random (Number.of_Z 0) (Number.of_Z 100)
                        (draw_for N))) with
       | Some k => k =? N
       | None => false
       end).
  assert (H : P N = true).
  { apply (upto_forallb P 101); [vm_compute; reflexivity | lia]. }
  unfold P in H. apply andb_prop in H as [H1 H2]. split; [exact H1 |].
  destruct (Reader.message_number _) as [k |]; [| discriminate].
  apply Z.eqb_eq in H2. now subst.
Qed.

(** The scenario of the spec: the empty record as event, and a draw that
    gives 37. *)
Example empty_event_draw_37 :
  exists response : object,
    fst (exports.handler empty_event (draw_for 37) initial_world)
    = Fulfilled response
    /\ response !! "statusCode" = Some (VNumber (Number.of_Z 200))
    /\ Reader.body_text response
       = Some (String JSON.dquote
                 ("Random number: 37" ++ String JSON.dquote EmptyString)).
Proof.
  rewrite handler_eq. eexists. split; [reflexivity |].
  split; vm_compute; reflexivity.
Qed.

(** The largest draw, [1 - 2 ^ -53]: the product with 101 rounds to
    [101 - 2 ^ -46], below 101, and the number is 100. *)
Example largest_draw_gives_100 :
  Math.random_range (S754_finite false 9007199254740991 (-53)) = true
  /\ lodash.random (Number.of_Z 0) (Number.of_Z 100)
       (S754_finite false 9007199254740991 (-53))
     = Number.of_Z 100.
Proof.
  split; vm_compute; reflexivity.
Qed.

End Handler.

(** * The properties of the handler *)

Section Claims.

Context {Event : Type}.

Implicit Types (event : Event) (rand : Number.t) (w : world).

(** C1: for every invocation event (and whatever the random source
    returns, in whatever world), the promise is fulfilled with a response
    whose [statusCode] is the Number 200. *)
Theorem statusCode_is_200 event rand w :
  exists response : object,
    fst (exports.handler event rand w) = Fulfilled response
    /\ response !! "statusCode" = Some (VNumber (Number.of_Z 200))
    /\ Number.to_Z (Number.of_Z 200) = 200.
Proof.
  rewrite handler_eq. eexists. split; [reflexivity |].
  split; [| reflexivity].
  unfold object. rewrite lookup_insert_ne by discriminate.
  apply lookup_insert_eq.
Qed.

(** C2: for every invocation, the number that [_.random] returns and that
    is read back from the body is an integer N with 0 <= N <= 100, and both
    endpoints are reached: some draw of the random source gives 0 and some
    draw gives 100. *)
Theorem random_number_in_range event rand w :
  Math.random_range rand = true ->
  (exists N : Z,
     lodash.random (Number.of_Z 0) (Number.of_Z 100) rand = Number.of_Z N
     /\ Reader.response_number (fst (exports.handler event rand w)) = Some N
     /\ 0 <= N <= 100)
  /\ (exists lo : Number.t,
        Math.random_range lo = true
        /\ lodash.random (Number.of_Z 0) (Number.of_Z 100) lo = Number.of_Z 0
        /\ Reader.response_number (fst (exports.handler event lo w)) = Some 0)
  /\ (exists hi : Number.t,
        Math.random_range hi = true
        /\ lodash.random (Number.of_Z 0) (Number.of_Z 100) hi
           = Number.of_Z 100
        /\ Reader.response_number (fst (exports.handler event hi w))
           = Some 100).
Proof.
  intros Hrand. split; [| split].
  - destruct (random_0_100 rand Hrand) as (N & HN & Heq).
    exists N. split; [exact Heq |]. split; [| exact HN].
    rewrite response_number_eq, Heq, toString_of_Z_small by exact HN.
    apply message_number_decimal.
  - exists (draw_for 0). split; [reflexivity |].
    split; [vm_compute; reflexivity |].
    rewrite response_number_eq. apply (draw_for_spec 0). lia.
  - exists (draw_for 100). split; [reflexivity |].
    split; [vm_compute; reflexivity |].
    rewrite response_number_eq. apply (draw_for_spec 100). lia.
Qed.

(** C3: for every invocation event, the body is the JSON text of a string,
    a double quote, the prefix [Random number: ], the decimal digits of the
    integer N that [_.random] returned and a double quote, and decoding
    that text gives back exactly [Random number: <N>]. *)
Theorem body_is_json_string event rand w :
  Math.random_range rand = true ->
  exists (N : Z) (response : object) (text : string),
    lodash.random (Number.of_Z 0) (Number.of_Z 100) rand = Number.of_Z N
    /\ fst (exports.handler event rand w) = Fulfilled response
    /\ response !! "body" = Some (VString text)
    /\ text = String JSON.dquote
                ("Random number: " ++ decimal N
                 ++ String JSON.dquote EmptyString)
    /\ Reader.parse_string text = Some ("Random number: " ++ decimal N)%string.
Proof.
  intros Hrand. destruct (random_0_100 rand Hrand) as (N & HN & Heq).
  exists N. rewrite handler_eq, Heq, toString_of_Z_small by exact HN.
  eexists. eexists. split; [reflexivity |]. split; [reflexivity |].
  split; [unfold object; apply lookup_insert_eq |].
  split; [| apply parse_QuoteJSONString].
  unfold JSON.QuoteJSONString.
  rewrite quote_chars_app, quote_chars_decimal, append_assoc. reflexivity.
Qed.

(** C4: for every invocation, with any event, the response has exactly the
    two properties [statusCode] and [body]. *)
Theorem response_has_two_attributes event rand w :
  exists response : object,
    fst (exports.handler event rand w) = Fulfilled response
    /\ dom response = ({["statusCode"; "body"]} : gset string)
    /\ size response = 2%nat.
Proof.
  rewrite handler_eq. eexists. split; [reflexivity |]. unfold object. split.
  - rewrite !dom_insert_L, dom_empty_L. set_solver.
  - rewrite !map_size_insert_None, map_size_empty; [reflexivity | ..].
    + apply lookup_empty.
    + rewrite lookup_insert_ne by discriminate. apply lookup_empty.
Qed.

(** C5: the handler raises no error.  Formatting a Number in the template
    literal and serialising a string complete normally, and for every
    event, every value of the random source and every world the promise
    is fulfilled with a response, never rejected. *)
Theorem handler_never_throws event rand w :
  (forall x : Number.t,
     template "Random number: " (VNumber x) ""
     = Normal ("Random number: " ++ Number.toString x ++ "")%string)
  /\ (forall s : string,
        JSON.stringify (VString s) = Normal (VString (JSON.QuoteJSONString s)))
  /\ (exists response : object,
        fst (exports.handler event rand w) = Fulfilled response)
  /\ (forall e : exception,
        fst (exports.handler event rand w) <> Rejected e).
Proof.
  split; [reflexivity |]. split; [reflexivity |].
  rewrite handler_eq. split; [eexists; reflexivity | discriminate].
Qed.

(** C8: the one effect of the handler outside of itself is on the random
    source.  An invocation takes exactly one draw from the generator behind
    [Math.random()], through [_.random], and changes nothing else: the
    global bindings and the output are what they were, the handler does no
    I/O.  The generator is the one state that invocations share: whatever
    the generator is, the invocation that follows takes the draw after the
    one this invocation took.  Given the draw that it takes, the response
    of an invocation does not depend on the invocations before it. *)
Theorem handler_only_advances_random_source event rand w :
  snd (exports.handler event rand w) = advance_random w
  /\ globals (snd (exports.handler event rand w)) = globals w
  /\ output (snd (exports.handler event rand w)) = output w
  /\ random_calls (snd (exports.handler event rand w)) = S (random_calls w)
  /\ (forall event' rand',
        fst (exports.handler event' rand'
               (snd (exports.handler event rand w)))
        = fst (exports.handler event' rand' w))
  /\ (forall (generator : nat -> Number.t) event',
        invoke generator event' (snd (invoke generator event w))
        = (fst (exports.handler event' (generator (S (random_calls w))) w),
           advance_random (advance_random w))).
Proof.
  unfold invoke. rewrite !handler_eq. cbn [snd].
  split; [reflexivity |]. split; [reflexivity |]. split; [reflexivity |].
  split; [reflexivity |].
  split; intros; now rewrite !handler_eq.
Qed.

(** C10: the handler is deterministic given its random source: with the
    same draw and the same event, two invocations, in whatever worlds,
    settle with the same response; and the status code is 200 whatever
    the draws are. *)
Theorem handler_deterministic event rand w1 w2 :
  fst (exports.handler event rand w1) = fst (exports.handler event rand w2)
  /\ forall rand1 rand2 : Number.t,
       exists response1 response2 : object,
         fst (exports.handler event rand1 w1) = Fulfilled response1
         /\ fst (exports.handler event rand2 w2) = Fulfilled response2
         /\ response1 !! "statusCode" = Some (VNumber (Number.of_Z 200))
         /\ response2 !! "statusCode" = Some (VNumber (Number.of_Z 200)).
Proof.
  split; [now rewrite !handler_eq |].
  intros rand1 rand2. rewrite !handler_eq. eexists. eexists.
  split; [reflexivity |]. split; [reflexivity |]. unfold object.
  split; (rewrite lookup_insert_ne by discriminate; apply lookup_insert_eq).
Qed.

End Claims.

(** C6: the event is not used: two invocations that differ only in their
    events, of whatever types, settle in the same way. *)
Theorem event_is_unused (Event1 Event2 : Type) (event1 : Event1)
        (event2 : Event2) (rand : Number.t) (w : world) :
  exports.handler event1 rand w = exports.handler event2 rand w.
Proof.
  now rewrite !handler_eq.
Qed.

(** C8, as the claim states it (no state is shared between invocations,
    any state observable outside of the handler is unchanged by every
    invocation), fails: the handler calls [Math.random()], inside
    [_.random], so that after an invocation the generator is one draw
    further than it was, and the invocation that follows, which is the same
    call in every respect, returns another response. *)
Lemma handler_changes_world :
  snd (exports.handler empty_event (draw_for 37) initial_world)
  <> initial_world
  /\ fst (invoke counting_generator empty_event
            (snd (invoke counting_generator empty_event initial_world)))
     <> fst (invoke counting_generator empty_event initial_world).
Proof.
  split.
  - rewrite handler_eq. discriminate.
  - intros H. apply (f_equal Reader.response_number) in H.
    unfold invoke in H. rewrite !response_number_eq in H.
    vm_compute in H. discriminate H.
Qed.

(** C7: the random integer is spread evenly over the inclusive range from 0
    to 100.  Every N of the range is returned for some draw of the random
    source; every draw gives a number of the range; and the number returned
    for the draw [m * 2 ^ e] is the integer part of [101 * m * 2 ^ e], or the
    next integer when that product is within [2 ^ -47] of it (the product is
    rounded to binary64 before [Math.floor]): each N is returned on an
    interval of draws of length 1/101, up to that rounding. *)
Theorem random_covers_exactly_0_100 :
  (forall N : Z,
     0 <= N <= 100 ->
     exists rand : Number.t,
       Math.random_range rand = true
       /\ lodash.random (Number.of_Z 0) (Number.of_Z 100) rand = Number.of_Z N
       /\ forall (Event : Type) (event : Event) (w : world),
            Reader.response_number (fst (exports.handler event rand w))
            = Some N)
  /\ (forall rand : Number.t,
        Math.random_range rand = true ->
        exists N : Z,
          0 <= N <= 100
          /\ lodash.random (Number.of_Z 0) (Number.of_Z 100) rand
             = Number.of_Z N
          /\ forall (Event : Type) (event : Event) (w : world),
               Reader.response_number (fst (exports.handler event rand w))
               = Some N)
  /\ (forall (m : positive) (e : Z),
        Math.random_range (S754_finite false m e) = true ->
        exists N : Z,
          lodash.random (Number.of_Z 0) (Number.of_Z 100)
            (S754_finite false m e) = Number.of_Z N
          /\ 101 * Z.pos m / 2 ^ (- e) <= N
          /\ N * 2 ^ (- e) <= 101 * Z.pos m + 64).
Proof.
  split; [| split].
  - intros N HN. exists (draw_for N).
    destruct (draw_for_spec N HN) as [Hrange Hnum].
    split; [exact Hrange |].
    split; [| intros; rewrite response_number_eq; exact Hnum].
    destruct (random_0_100 (draw_for N) Hrange) as (N' & HN' & Heq).
    rewrite Heq, toString_of_Z_small, message_number_decimal in Hnum
      by exact HN'.
    congruence.
  - intros rand Hrand.
    destruct (random_0_100 rand Hrand) as (N & HN & Heq).
    exists N. split; [exact HN |]. split; [exact Heq |]. intros.
    rewrite response_number_eq, Heq, toString_of_Z_small by exact HN.
    apply message_number_decimal.
  - intros m e Hrand.
    destruct (random_0_100_finite m e Hrand) as (N & _ & Heq & Hlow & Hup).
    exists N. split; [exact Heq |]. split; assumption.
Qed.

(** C9: for every integer N from 0 to 100, no character of the message
    [Random number: <N>] needs an escape, the JSON text is the message
    between two double quotes, and decoding the JSON text gives the message
    back. *)
Theorem json_encoding_is_lossless (N : Z) :
  0 <= N <= 100 ->
  let message :=
    ("Random number: " ++ Number.toString (Number.of_Z N))%string in
  Forall (fun c => JSON.quote_char c = String c EmptyString)
         (list_ascii_of_string message)
  /\ JSON.stringify (VString message)
     = Normal (VString (String JSON.dquote
                          (message ++ String JSON.dquote EmptyString)))
  /\ Reader.parse_string (JSON.QuoteJSONString message) = Some message.
Proof.
  intros HN message. split; [| split].
  - assert (H : forallb
                  (fun c =>
                     String.eqb (JSON.quote_char c) (String c EmptyString))
                  (list_ascii_of_string message) = true).
    { apply (upto_forallb
               (fun N =>
                  forallb
                    (fun c =>
                       String.eqb (JSON.quote_char c) (String c EmptyString))
                    (list_ascii_of_string
                       ("Random number: " ++ Number.toString (Number.of_Z N))))
               101); [vm_compute; reflexivity | lia]. }
    rewrite List.forallb_forall in H. apply List.Forall_forall.
    intros c Hc. apply String.eqb_eq, H, Hc.
  - unfold message. rewrite toString_of_Z_small by exact HN.
    unfold JSON.stringify, JSON.QuoteJSONString.
    now rewrite quote_chars_app, quote_chars_decimal.
  - apply parse_QuoteJSONString.
Qed.

(** ** The theorems with a hypothesis, at concrete invocations *)

Lemma random_number_in_range_witness :
  Math.random_range (draw_for 37) = true
  /\ (exists N : Z,
        lodash.random (Number.of_Z 0) (Number.of_Z 100) (draw_for 37)
        = Number.of_Z N
        /\ Reader.response_number
             (fst (exports.handler empty_event (draw_for 37) initial_world))
           = Some N
        /\ 0 <= N <= 100).
Proof.
  split; [reflexivity |].
  apply (random_number_in_range empty_event (draw_for 37) initial_world).
  reflexivity.
Defined.

Lemma body_is_json_string_witness :
  exists (N : Z) (response : object) (text : string),
    lodash.random (Number.of_Z 0) (Number.of_Z 100) (draw_for 37)
    = Number.of_Z N
    /\ fst (exports.handler empty_event (draw_for 37) initial_world)
       = Fulfilled response
    /\ response !! "body" = Some (VString text)
    /\ text = String JSON.dquote
                ("Random number: " ++ decimal N
                 ++ String JSON.dquote EmptyString)
    /\ Reader.parse_string text = Some ("Random number: " ++ decimal N)%string.
Proof.
  apply (body_is_json_string empty_event (draw_for 37) initial_world).
  reflexivity.
Defined.

Lemma random_covers_exactly_0_100_witness :
  (exists rand : Number.t,
     Math.random_range rand = true
     /\ lodash.random (Number.of_Z 0) (Number.of_Z 100) rand = Number.of_Z 37)
  /\ (exists N : Z,
        0 <= N <= 100
        /\ lodash.random (Number.of_Z 0) (Number.of_Z 100) (draw_for 100)
           = Number.of_Z N)
  /\ (exists N : Z,
        lodash.random (Number.of_Z 0) (Number.of_Z 100)
          (S754_finite false 9007199254740991 (-53)) = Number.of_Z N
        /\ 101 * 9007199254740991 / 2 ^ 53 <= N
        /\ N * 2 ^ 53 <= 101 * 9007199254740991 + 64).
Proof.
  destruct random_covers_exactly_0_100 as (Hall & Hrange & Hfloor).
  split; [| split].
  - destruct (Hall 37) as (rand & H1 & H2 & _); [lia |].
    exists rand. split; assumption.
  - destruct (Hrange (draw_for 100)) as (N & H1 & H2 & _); [reflexivity |].
    exists N. split; assumption.
  - apply (Hfloor 9007199254740991%positive (-53)). reflexivity.
Defined.

Lemma json_encoding_is_lossless_witness :
  Reader.parse_string
    (JSON.QuoteJSONString
       ("Random number: " ++ Number.toString (Number.of_Z 37)))
  = Some ("Random number: " ++ Number.toString (Number.of_Z 37))%string.
Proof.
  apply (json_encoding_is_lossless 37). lia.
Defined.

(** * More on the serialisation and on the two handlers *)

Section Serialisation.

Lemma length_append (a b : string) :
  String.length (a ++ b) = (String.length a + String.length b)%nat.
Proof.
  induction a as [| c a IH]; [reflexivity |].
  change (S (String.length (a ++ b))
          = S (String.length a + String.length b))%nat.
  now rewrite IH.
Qed.

Lemma list_ascii_of_string_app (a b : string) :
  list_ascii_of_string (a ++ b)
  = (list_ascii_of_string a ++ list_ascii_of_string b)%list.
Proof.
  induction a as [| c a IH]; [reflexivity |].
  change (c :: list_ascii_of_string (a ++ b)
          = c :: (list_ascii_of_string a ++ list_ascii_of_string b)%list).
  now rewrite IH.
Qed.

(** What is written for one code unit: one to six characters, none of them
    a control character. *)
Lemma quote_char_shape (c : ascii) :
  (1 <= String.length (JSON.quote_char c) <= 6)%nat
  /\ Forall (fun a => (32 <= N_of_ascii a)%N)
            (list_ascii_of_string (JSON.quote_char c)).
Proof.
  assert (H : (1 <=? String.length (JSON.quote_char c))%nat
              && (String.length (JSON.quote_char c) <=? 6)%nat
              && forallb (fun a => (32 <=? N_of_ascii a)%N)
                   (list_ascii_of_string (JSON.quote_char c)) = true).
  { destruct c as [[] [] [] [] [] [] [] []]; reflexivity. }
  apply andb_prop in H as [H Hall]. apply andb_prop in H as [Hlo Hhi].
  apply Nat.leb_le in Hlo. apply Nat.leb_le in Hhi.
  split; [lia |].
  apply List.Forall_forall. intros a Ha.
  rewrite List.forallb_forall in Hall. apply N.leb_le. now apply Hall.
Qed.

Lemma quote_chars_shape (s : string) :
  (String.length s <= String.length (JSON.quote_chars s)
   <= 6 * String.length s)%nat
  /\ Forall (fun a => (32 <= N_of_ascii a)%N)
            (list_ascii_of_string (JSON.quote_chars s)).
Proof.
  induction s as [| c s [IHlen IHall]].
  - split; [simpl; lia | constructor].
  - change (JSON.quote_chars (String c s))
      with (JSON.quote_char c ++ JSON.quote_chars s)%string.
    rewrite length_append, list_ascii_of_string_app.
    destruct (quote_char_shape c) as [Hlen Hall].
    split; [simpl String.length; lia |].
    apply List.Forall_app. split; assumption.
Qed.

(** X1: serialising a string of code units below 256, as the handlers do
    for their body, loses nothing: the JSON text decodes back to the
    string, and two different strings never get the same JSON text. *)
Theorem stringify_round_trip (s : string) :
  (exists text : string,
     JSON.stringify (VString s) = Normal (VString text)
     /\ Reader.parse_string text = Some s)
  /\ (forall s' : string,
        JSON.stringify (VString s) = JSON.stringify (VString s') -> s = s').
Proof.
  split.
  - exists (JSON.QuoteJSONString s).
    split; [reflexivity | apply parse_QuoteJSONString].
  - intros s' H.
    assert (H' : JSON.QuoteJSONString s = JSON.QuoteJSONString s')
      by (unfold JSON.stringify in H; congruence).
    apply (f_equal Reader.parse_string) in H'.
    rewrite !parse_QuoteJSONString in H'. congruence.
Qed.

(** X2: the JSON text of a string of code units below 256 never contains a
    control character (a code unit below 0x20), whatever control characters
    the string contains; it starts and it ends with a double quote. *)
Theorem quoted_text_has_no_control_character (s : string) :
  Forall (fun a => (32 <= N_of_ascii a)%N)
         (list_ascii_of_string (JSON.QuoteJSONString s))
  /\ (exists inner : string,
        JSON.QuoteJSONString s
        = String JSON.dquote (inner ++ String JSON.dquote EmptyString))
  /\ String.get 0 (JSON.QuoteJSONString s) = Some JSON.dquote
  /\ String.get (String.length (JSON.QuoteJSONString s) - 1)
                (JSON.QuoteJSONString s) = Some JSON.dquote.
Proof.
  destruct (quote_chars_shape s) as [_ Hall].
  unfold JSON.QuoteJSONString. split; [| split; [| split]].
  - change (list_ascii_of_string
              (String JSON.dquote
                 (JSON.quote_chars s ++ String JSON.dquote EmptyString)))
      with (JSON.dquote
            :: list_ascii_of_string
                 (JSON.quote_chars s ++ String JSON.dquote EmptyString)).
    constructor; [vm_compute; discriminate |].
    rewrite list_ascii_of_string_app. apply List.Forall_app.
    split; [exact Hall |].
    constructor; [vm_compute; discriminate | constructor].
  - exists (JSON.quote_chars s). reflexivity.
  - reflexivity.
  - change (String.length
              (String JSON.dquote
                 (JSON.quote_chars s ++ String JSON.dquote EmptyString)))
      with (S (String.length
                 (JSON.quote_chars s ++ String JSON.dquote EmptyString))).
    rewrite length_append.
    change (String.length (String JSON.dquote EmptyString)) with 1%nat.
    replace (S (String.length (JSON.quote_chars s) + 1) - 1)%nat
      with (S (0 + String.length (JSON.quote_chars s)))%nat by lia.
    change (String.get (0 + String.length (JSON.quote_chars s))
              (JSON.quote_chars s ++ String JSON.dquote EmptyString)
            = Some JSON.dquote).
    rewrite <- append_correct2. reflexivity.
Qed.

Lemma QuoteJSONString_length (s : string) :
  String.length (JSON.QuoteJSONString s)
  = (String.length (JSON.quote_chars s) + 2)%nat.
Proof.
  unfold JSON.QuoteJSONString.
  change (String.length
            (String JSON.dquote
               (JSON.quote_chars s ++ String JSON.dquote EmptyString)))
    with (S (String.length
               (JSON.quote_chars s ++ String JSON.dquote EmptyString))).
  rewrite length_append.
  change (String.length (String JSON.dquote EmptyString)) with 1%nat. lia.
Qed.

(** A code unit written with one character is written as itself. *)
Lemma quote_char_length_1 (c : ascii) :
  String.length (JSON.quote_char c) = 1%nat ->
  JSON.quote_char c = String c EmptyString.
Proof.
  destruct c as [[] [] [] [] [] [] [] []];
    solve [reflexivity | discriminate].
Qed.

Lemma quote_chars_same_length (s : string) :
  String.length (JSON.quote_chars s) = String.length s ->
  Forall (fun c => JSON.quote_char c = String c EmptyString)
         (list_ascii_of_string s).
Proof.
  induction s as [| c s IH]; [constructor |].
  change (JSON.quote_chars (String c s))
    with (JSON.quote_char c ++ JSON.quote_chars s)%string.
  rewrite length_append. simpl String.length. intros H.
  destruct (quote_char_shape c) as [Hc _].
  destruct (quote_chars_shape s) as [Hs _].
  change (list_ascii_of_string (String c s))
    with (c :: list_ascii_of_string s).
  constructor; [apply quote_char_length_1; lia | apply IH; lia].
Qed.

Lemma quote_chars_unescaped (s : string) :
  Forall (fun c => JSON.quote_char c = String c EmptyString)
         (list_ascii_of_string s) ->
  JSON.quote_chars s = s.
Proof.
  induction s as [| c s IH]; [reflexivity |].
  change (list_ascii_of_string (String c s))
    with (c :: list_ascii_of_string s).
  intros H. inversion H as [| c' l Hc Hs]; subst.
  change (JSON.quote_chars (String c s))
    with (JSON.quote_char c ++ JSON.quote_chars s)%string.
  now rewrite Hc, IH.
Qed.

(** X3: the JSON text of a string of [n] code units, all below 256, has
    between [n + 2] and [6 n + 2] characters, and exactly [n + 2] precisely
    when no code unit of the string needs an escape, in which case the text
    is the string between two double quotes. *)
Theorem quoted_text_length (s : string) :
  (String.length s + 2 <= String.length (JSON.QuoteJSONString s)
   <= 6 * String.length s + 2)%nat
  /\ (String.length (JSON.QuoteJSONString s) = (String.length s + 2)%nat
      <-> Forall (fun c => JSON.quote_char c = String c EmptyString)
                 (list_ascii_of_string s))
  /\ (String.length (JSON.QuoteJSONString s) = (String.length s + 2)%nat
      -> JSON.QuoteJSONString s
         = String JSON.dquote (s ++ String JSON.dquote EmptyString)).
Proof.
  destruct (quote_chars_shape s) as [Hlen _].
  rewrite QuoteJSONString_length. split; [lia |]. split; [split |].
  - intros H. apply quote_chars_same_length. lia.
  - intros H. now rewrite (quote_chars_unescaped s H).
  - intros H. unfold JSON.QuoteJSONString.
    rewrite (quote_chars_unescaped s); [reflexivity |].
    apply quote_chars_same_length. lia.
Qed.

End Serialisation.

Section TwoHandlers.

Context {Event : Type}.

Implicit Types (event : Event) (rand : Number.t) (w : world).

(** The text of the body for the number [N]. *)
Lemma body_text_eq event rand w (N : Z) :
  0 <= N <= 100 ->
  lodash.random (Number.of_Z 0) (Number.of_Z 100) rand = Number.of_Z N ->
  exists response : object,
    fst (exports.handler event rand w) = Fulfilled response
    /\ Reader.body_text response
       = Some (JSON.QuoteJSONString ("Random number: " ++ decimal N)).
Proof.
  intros HN Heq. rewrite handler_eq, Heq, toString_of_Z_small by exact HN.
  eexists. split; [reflexivity |].
  unfold Reader.body_text, object. now rewrite lookup_insert_eq.
Qed.

(** X4: the body of a response is short and plain: for every draw, with N
    the integer that [_.random] returned, it is 17 characters and the
    decimal digits of N, that is 18 to 20 characters, each of them a
    printable ASCII character. *)
Theorem body_is_short_printable_ascii event rand w :
  Math.random_range rand = true ->
  exists (N : Z) (response : object) (text : string),
    lodash.random (Number.of_Z 0) (Number.of_Z 100) rand = Number.of_Z N
    /\ 0 <= N <= 100
    /\ fst (exports.handler event rand w) = Fulfilled response
    /\ Reader.body_text response = Some text
    /\ String.length text = (17 + String.length (decimal N))%nat
    /\ (18 <= String.length text <= 20)%nat
    /\ Forall (fun a => (32 <= N_of_ascii a <= 126)%N)
              (list_ascii_of_string text).
Proof.
  intros Hrand. destruct (random_0_100 rand Hrand) as (N & HN & Heq).
  destruct (body_text_eq event rand w N HN Heq) as (response & Hresp & Hbody).
  exists N, response, (JSON.QuoteJSONString ("Random number: " ++ decimal N)).
  split; [exact Heq |]. split; [exact HN |]. split; [exact Hresp |].
  split; [exact Hbody |].
  pose (P := fun N : Z =>
    let text := JSON.QuoteJSONString ("Random number: " ++ decimal N) in
    (String.length text =? 17 + String.length (decimal N))%nat
    && (18 <=? String.length text)%nat
    && (String.length text <=? 20)%nat
    && forallb (fun a => (32 <=? N_of_ascii a)%N && (N_of_ascii a <=? 126)%N)
         (list_ascii_of_string text)).
  assert (H : P N = true).
  { apply (upto_forallb P 101); [vm_compute; reflexivity | lia]. }
  unfold P in H. cbv zeta in H.
  apply andb_prop in H as [H Hall]. apply andb_prop in H as [H Hhi].
  apply andb_prop in H as [Hlen Hlo].
  apply Nat.eqb_eq in Hlen. apply Nat.leb_le in Hlo. apply Nat.leb_le in Hhi.
  split; [exact Hlen |]. split; [lia |].
  apply List.Forall_forall. intros a Ha.
  rewrite List.forallb_forall in Hall. specialize (Hall a Ha).
  apply andb_prop in Hall as [H1 H2].
  apply N.leb_le in H1. apply N.leb_le in H2. lia.
Qed.

(** X5: two invocations, with whatever events and in whatever worlds,
    whose draws make [_.random] return the integers N1 and N2, return the
    same response exactly when N1 = N2: the response tells the integer and
    nothing else of the draw. *)
Theorem same_response_iff_same_number
        event1 event2 rand1 rand2 w1 w2 :
  Math.random_range rand1 = true ->
  Math.random_range rand2 = true ->
  exists N1 N2 : Z,
    lodash.random (Number.of_Z 0) (Number.of_Z 100) rand1 = Number.of_Z N1
    /\ lodash.random (Number.of_Z 0) (Number.of_Z 100) rand2 = Number.of_Z N2
    /\ Reader.response_number (fst (exports.handler event1 rand1 w1))
       = Some N1
    /\ Reader.response_number (fst (exports.handler event2 rand2 w2))
       = Some N2
    /\ (fst (exports.handler event1 rand1 w1)
        = fst (exports.handler event2 rand2 w2)
        <-> N1 = N2).
Proof.
  intros H1 H2.
  destruct (random_0_100 rand1 H1) as (N1 & HN1 & Heq1).
  destruct (random_0_100 rand2 H2) as (N2 & HN2 & Heq2).
  assert (Hnum1 : Reader.response_number (fst (exports.handler event1 rand1 w1))
                  = Some N1).
  { rewrite response_number_eq, Heq1, toString_of_Z_small by assumption.
    apply message_number_decimal. }
  assert (Hnum2 : Reader.response_number (fst (exports.handler event2 rand2 w2))
                  = Some N2).
  { rewrite response_number_eq, Heq2, toString_of_Z_small by assumption.
    apply message_number_decimal. }
  exists N1, N2. repeat (split; [assumption |]). split.
  - intros H. rewrite H in Hnum1. congruence.
  - intros ->. now rewrite !handler_eq, Heq1, Heq2.
Qed.

Lemma README_handler_eq event w :
  README.handler event w
  = (Fulfilled
       (<["body" := VString (JSON.QuoteJSONString "Hello from Lambda!")]>
          (<["statusCode" := VNumber (Number.of_Z 200)]> (∅ : object))),
     w).
Proof. reflexivity. Qed.

(** X6: the handler of the README and the handler of [index.js] answer in
    the same form: each fulfils its promise with a response whose
    properties are [statusCode] and [body] and no other, with the Number 200
    as [statusCode].  They differ in the body, that of the README decodes
    to [Hello from Lambda!] and [index.js] never returns it, whatever the
    random source gives; and in their effect: the handler of the README
    leaves the world as it is, that of [index.js] takes a draw from the
    random source. *)
Theorem README_handler_and_handler event rand w :
  exists (hello response : object) (text : string),
    README.handler event w = (Fulfilled hello, w)
    /\ exports.handler event rand w = (Fulfilled response, advance_random w)
    /\ dom hello = ({["statusCode"; "body"]} : gset string)
    /\ dom response = ({["statusCode"; "body"]} : gset string)
    /\ hello !! "statusCode" = Some (VNumber (Number.of_Z 200))
    /\ response !! "statusCode" = Some (VNumber (Number.of_Z 200))
    /\ Reader.body_text hello = Some text
    /\ Reader.parse_string text = Some "Hello from Lambda!"
    /\ Reader.body_text response <> Some text.
Proof.
  rewrite handler_eq, README_handler_eq. eexists. eexists. eexists.
  split; [reflexivity |]. split; [reflexivity |]. unfold object.
  split; [rewrite !dom_insert_L, dom_empty_L; set_solver |].
  split; [rewrite !dom_insert_L, dom_empty_L; set_solver |].
  split; [now rewrite lookup_insert_ne, lookup_insert_eq by discriminate |].
  split; [now rewrite lookup_insert_ne, lookup_insert_eq by discriminate |].
  unfold Reader.body_text, object. rewrite !lookup_insert_eq.
  split; [reflexivity |]. split; [vm_compute; reflexivity |].
  unfold JSON.QuoteJSONString. rewrite quote_chars_app.
  generalize (JSON.quote_chars
                (Number.toString
                   (lodash.random (Number.of_Z 0) (Number.of_Z 100) rand))).
  intros digits H. vm_compute in H. discriminate H.
Qed.

End TwoHandlers.

Lemma body_is_short_printable_ascii_witness :
  exists (N : Z) (response : object) (text : string),
    lodash.random (Number.of_Z 0) (Number.of_Z 100) (draw_for 100)
    = Number.of_Z N
    /\ 0 <= N <= 100
    /\ fst (exports.handler empty_event (draw_for 100) initial_world)
       = Fulfilled response
    /\ Reader.body_text response = Some text
    /\ String.length text = (17 + String.length (decimal N))%nat
    /\ (18 <= String.length text <= 20)%nat
    /\ Forall (fun a => (32 <= N_of_ascii a <= 126)%N)
              (list_ascii_of_string text).
Proof.
  apply (body_is_short_printable_ascii
           empty_event (draw_for 100) initial_world).
  reflexivity.
Defined.

Lemma same_response_iff_same_number_witness :
  exists N1 N2 : Z,
    lodash.random (Number.of_Z 0) (Number.of_Z 100) (draw_for 37)
    = Number.of_Z N1
    /\ lodash.random (Number.of_Z 0) (Number.of_Z 100)
         (S754_finite false 6755399441055744 (-54))
       = Number.of_Z N2
    /\ Reader.response_number
         (fst (exports.handler empty_event (draw_for 37) initial_world))
       = Some N1
    /\ Reader.response_number
         (fst (exports.handler empty_event
                 (S754_finite false 6755399441055744 (-54)) initial_world))
       = Some N2
    /\ (fst (exports.handler empty_event (draw_for 37) initial_world)
        = fst (exports.handler empty_event
                 (S754_finite false 6755399441055744 (-54)) initial_world)
        <-> N1 = N2).
Proof.
  apply (same_response_iff_same_number empty_event empty_event (draw_for 37)
           (S754_finite false 6755399441055744 (-54))
           initial_world initial_world); reflexivity.
Defined.
